(* Shallow embedding of festival.py (Festival-Playlists): the artist
   resolver fetch_artist_details, the per-artist track selector
   fetch_top_songs, the batch adder add_tracks_in_batches and the data flow
   of the three phases of main.

   Modelling choices:
   - Python str is modelled by String.string over ASCII; str.lower lowers
     'A'..'Z' (the ASCII part of Python's Unicode lowering);
   - `a in b` on strings is substring containment;
   - the Spotify client is a record of functions; each API step either
     returns its data or raises a Python exception (the Result type below);
   - a Python exception raised inside a `try` block is an `Err` of the
     Result monad, and the `except` clauses are a match on it. *)

From Stdlib Require Import List Arith Lia Bool String Ascii QArith.
Import ListNotations.
Open Scope string_scope.
Open Scope nat_scope.

(* ------------------------------------------------------------------ *)
(** * Python strings *)

Module PyStr.

(** [str.lower] on the ASCII range. *)
Definition lower_char (c : ascii) : ascii :=
  let n := nat_of_ascii c in
  if (65 <=? n) && (n <=? 90) then ascii_of_nat (n + 32) else c.

Fixpoint lower (s : string) : string :=
  match s with
  | EmptyString => EmptyString
  | String c r => String (lower_char c) (lower r)
  end.

(** [needle in hay] for strings. *)
Fixpoint contains (needle hay : string) : bool :=
  prefix needle hay ||
  match hay with
  | EmptyString => false
  | String _ r => contains needle r
  end.

(** [s.startswith(p)]. *)
Definition startswith (s p : string) : bool := prefix p s.

(** [s[k:]]. *)
Definition slice_from (k : nat) (s : string) : string :=
  substring k (length s - k) s.

(** [str(n)] for a natural number (decimal). *)
Fixpoint digits_aux (fuel n : nat) (acc : string) : string :=
  match fuel with
  | 0 => acc
  | S f =>
      let d := String (ascii_of_nat (48 + n mod 10)) EmptyString in
      if n <? 10 then d ++ acc else digits_aux f (n / 10) (d ++ acc)
  end.

Definition str_nat (n : nat) : string := digits_aux (S n) n "".

Definition str_bool (b : bool) : string := if b then "True" else "False".

(** A newline character, for the ["\n..."] literals of the source. *)
Definition nl : string := String (ascii_of_nat 10) EmptyString.

End PyStr.

Import PyStr.

(* ------------------------------------------------------------------ *)
(** * Exceptions and API results *)

Inductive py_exc :=
| SpotifyException (msg : string)  (* spotipy.exceptions.SpotifyException *)
| NameError (name : string)
| IndexError
| OtherException (msg : string).

Definition exc_str (e : py_exc) : string :=
  match e with
  | SpotifyException m => m
  | NameError n => "name '" ++ n ++ "' is not defined"
  | IndexError => "list index out of range"
  | OtherException m => m
  end.

Inductive Result (A : Type) :=
| Ok (a : A)
| Err (e : py_exc).
Arguments Ok {A} a.
Arguments Err {A} e.

(* ------------------------------------------------------------------ *)
(** * Data *)

(** An artist object of a search response: ["name"], ["id"], ["genres"]. *)
Record artist_item := mk_artist_item {
  item_name : string;
  item_id : string;
  item_genres : list string
}.

(** ArtistData returned by fetch_artist_details. *)
Record ArtistData := mk_ArtistData {
  ad_name : string;
  ad_id : string;
  ad_genres : list string
}.

(** A track object of a top-tracks response: ["name"], ["id"]. *)
Record track := mk_track {
  track_name : string;
  track_id : string
}.

(** SongData built by fetch_top_songs. *)
Record SongData := mk_SongData {
  song_id : string;
  song_name : string;
  song_artist_name : string;
  song_artist_id : string
}.

(** The spotipy client as used by the program.  [search] stands for
    [sp.search(q, limit=5, type="artist")["artists"]["items"]] and
    [artist_top_tracks] for [sp.artist_top_tracks(id)["tracks"]]; each
    either returns the data or raises. *)
Record Spotify := mk_Spotify {
  search : string -> Result (list artist_item);
  artist_top_tracks : string -> Result (list track);
  user_playlist_add_tracks : string -> string -> list string -> Result unit
}.

(* ------------------------------------------------------------------ *)
(** * fetch_artist_details *)

(** [difflib.SequenceMatcher(None, a, b).ratio()] as a function of [a] and
    [b].  The float literal [0.90] is compared as the rational [9/10]. *)
Definition ratio_fn := string -> string -> Q.

(** The binding of the global name [difflib] in festival.py.  The module
    calls [difflib.SequenceMatcher] but its imports (logging, os, sys,
    concurrent.futures, typing, spotipy, spotipy.util) do not include
    [difflib]: the name is unbound, and evaluating it raises
    [NameError: name 'difflib' is not defined]. *)
Definition festival_difflib : option ratio_fn := None.

(** [', '.join(xs)]. *)
Fixpoint join_comma (xs : list string) : string :=
  match xs with
  | [] => ""
  | [x] => x
  | x :: r => x ++ ", " ++ join_comma r
  end.

(** The loop [for item in items:] of Step 2; [Ok (Some item)] is a
    [break] with [best_match_item = item], [Ok None] a loop run to its end. *)
Fixpoint scan_items (difflib : option ratio_fn) (normalized_query : string)
    (items : list artist_item) : Result (option artist_item) :=
  match items with
  | [] => Ok None
  | item :: rest =>
      let spotify_name := item_name item in
      if String.eqb (lower spotify_name) normalized_query then Ok (Some item)
      else
        match difflib with
        | None => Err (NameError "difflib")
        | Some ratio =>
            let similarity := ratio normalized_query (lower spotify_name) in
            if negb (Qle_bool similarity (9 # 10)) then Ok (Some item)
            else if startswith normalized_query "the "
                    && String.eqb (lower spotify_name) (slice_from 4 normalized_query)
            then Ok (Some item)
            else scan_items difflib normalized_query rest
        end
  end.

Definition not_found_log (artist_name : string) : string :=
  "[WARNING] Artist: '" ++ artist_name ++ "' not found on Spotify. Skipping.".

Definition no_close_match_log (artist_name top_result_name : string) : string :=
  "[WARNING] Artist: '" ++ artist_name ++ "' has no close match in top 5. Top result was '"
    ++ top_result_name ++ "'. Skipping.".

Definition details_logs (artist_name : string) (best : artist_item) : list string :=
  [ "--- Artist Details: " ++ artist_name ++ " ---";
    "  > Matched Spotify Name: " ++ item_name best;
    "  > ID: " ++ item_id best;
    "  > Genres: " ++ (match item_genres best with
                       | [] => "None"
                       | gs => join_comma gs
                       end) ].

Definition resolve_error_log (artist_name : string) (e : py_exc) : string :=
  "[ERROR] Fetching details for '" ++ artist_name ++ "' failed: " ++ exc_str e
    ++ ". Skipping.".

(** The body of the [try] block of fetch_artist_details. *)
Definition fetch_artist_details_body (difflib : option ratio_fn) (sp : Spotify)
    (artist_name : string) : Result (option ArtistData * list string) :=
  let normalized_query := lower artist_name in
  match search sp artist_name with
  | Err e => Err e
  | Ok items =>
      match items with
      | [] => Ok (None, [not_found_log artist_name])
      | _ :: _ =>
          match scan_items difflib normalized_query items with
          | Err e => Err e
          | Ok None =>
              (* top_result_name = items[0]["name"] *)
              match nth_error items 0 with
              | None => Err IndexError
              | Some top => Ok (None, [no_close_match_log artist_name (item_name top)])
              end
          | Ok (Some best) =>
              Ok (Some (mk_ArtistData (item_name best) (item_id best) (item_genres best)),
                  details_logs artist_name best)
          end
      end
  end.

(** fetch_artist_details, for a given binding of [difflib]: the [try]
    block and its [except Exception] clause. *)
Definition fetch_artist_details_in (difflib : option ratio_fn) (sp : Spotify)
    (artist_name : string) : option ArtistData * list string :=
  match fetch_artist_details_body difflib sp artist_name with
  | Ok r => r
  | Err e => (None, [resolve_error_log artist_name e])
  end.

(** fetch_artist_details as festival.py defines it. *)
Definition fetch_artist_details (sp : Spotify) (artist_name : string)
    : option ArtistData * list string :=
  fetch_artist_details_in festival_difflib sp artist_name.

(* ------------------------------------------------------------------ *)
(** * fetch_top_songs *)

(** [remixes_allowed_genres] of main. *)
Definition remixes_allowed_genres : list string :=
  ["house"; "dub"; "trance"; "breakbeat"; "bass"; "techno"; "edm"; "dance"].

(** [any(remix_genre in genre for genre in artist_genres
         for remix_genre in remixes_allowed)]. *)
Definition allow_remixes_flag (artist_genres remixes_allowed : list string) : bool :=
  existsb (fun genre => existsb (fun remix_genre => contains remix_genre genre)
                                remixes_allowed)
          artist_genres.

(** [is_remix] of the track loop. *)
Definition is_remix (song_name : string) : bool :=
  contains "remix" (lower song_name)
  || (contains "edit" (lower song_name)
      && negb (contains "radio edit" (lower song_name))
      && negb (contains "album edit" (lower song_name))).

(** The condition [allow_remixes_flag or not is_remix]. *)
Definition accepted (allow : bool) (t : track) : bool :=
  allow || negb (is_remix (track_name t)).

Definition added_log (t : track) : string :=
  "  > ADDED: '" ++ track_name t ++ "' | ID: " ++ track_id t.

Definition skipped_log (t : track) : string :=
  "  > SKIPPED: '" ++ track_name t ++ "' (Remix/Edit detected and not allowed by genre.)".

(** The log line written for an examined track. *)
Definition track_log (allow : bool) (t : track) : string :=
  if accepted allow t then added_log t else skipped_log t.

(** The loop [for i, track in enumerate(all_tracks[:10]):] over the given
    tracks, with [tracks_to_add] and the appended log lines as state; it
    [break]s once [len(tracks_to_add) >= 5]. *)
Fixpoint scan_tracks (allow : bool) (ts : list track)
    (tracks_to_add : list track) (logs : list string) : list track * list string :=
  match ts with
  | [] => (tracks_to_add, logs)
  | t :: rest =>
      let '(tracks_to_add', logs') :=
        if allow || negb (is_remix (track_name t))
        then ((tracks_to_add ++ [t])%list, app logs [added_log t])
        else (tracks_to_add, app logs [skipped_log t]) in
      if 5 <=? List.length tracks_to_add' then (tracks_to_add', logs')
      else scan_tracks allow rest tracks_to_add' logs'
  end.

Definition to_song_data (a : ArtistData) (t : track) : SongData :=
  mk_SongData (track_id t) (track_name t) (ad_name a) (ad_id a).

Definition top_songs_header (a : ArtistData) (flag : bool) : list string :=
  [ nl ++ "--- Top Songs: " ++ ad_name a ++ " (" ++ ad_id a ++ ") ---";
    "  > Remix Check: Genres permit remixes/edits? " ++ str_bool flag ].

Definition top_songs_error_log (a : ArtistData) (e : py_exc) : string :=
  match e with
  | SpotifyException _ =>
      "[ERROR] Spotify API Error fetching tracks for " ++ ad_name a ++ ": "
        ++ exc_str e ++ ". Skipping."
  | _ =>
      "[ERROR] An unexpected error occurred fetching tracks for " ++ ad_name a ++ ": "
        ++ exc_str e ++ ". Skipping."
  end.

(** The [try] block of fetch_top_songs: the tracks and the log lines it
    appends.  Only [sp.artist_top_tracks] raises, before any append. *)
Definition fetch_top_songs_body (sp : Spotify) (a : ArtistData) (flag : bool)
    : Result (list SongData * list string) :=
  match artist_top_tracks sp (ad_id a) with
  | Err e => Err e
  | Ok all_tracks =>
      match all_tracks with
      | [] => Ok ([], ["  > WARNING: No top tracks available for " ++ ad_name a ++ "."])
      | _ :: _ =>
          let '(tracks_to_add, loop_logs) := scan_tracks flag (firstn 10 all_tracks) [] [] in
          let tracks := map (to_song_data a) (firstn 5 tracks_to_add) in
          Ok (tracks,
              app loop_logs ["  > Final Count: " ++ str_nat (List.length tracks)
                             ++ " songs added for " ++ ad_name a])
      end
  end.

Definition fetch_top_songs (sp : Spotify) (a : ArtistData) (remixes_allowed : list string)
    : list SongData * list string :=
  let flag := allow_remixes_flag (ad_genres a) remixes_allowed in
  let logs := top_songs_header a flag in
  match fetch_top_songs_body sp a flag with
  | Ok (tracks, more) => (tracks, app logs more)
  | Err e => ([], app logs [top_songs_error_log a e])
  end.

(* ------------------------------------------------------------------ *)
(** * add_tracks_in_batches *)

(** Python's [range(start, stop, step)] for [step > 0]. *)
Definition py_range (start stop step : nat) : list nat :=
  map (fun k => start + step * k) (seq 0 ((stop - start + step - 1) / step)).

Definition batch_size : nat := 100.

Definition batch_log (i : nat) (batch : list string) : string :=
  "Added batch " ++ str_nat (i / batch_size + 1) ++ " (" ++ str_nat (List.length batch)
    ++ " tracks) to the playlist.".

(** A run of the loop body over the remaining values of [i]: the batches
    handed to [sp.user_playlist_add_tracks] (in call order), the INFO
    messages logged, and whether the loop ended normally or an API call
    raised (the exception leaves the function). *)
Fixpoint batch_loop (sp : Spotify) (username playlist_id : string)
    (song_ids : list string) (is : list nat)
    : list (list string) * list string * Result unit :=
  match is with
  | [] => ([], [], Ok tt)
  | i :: rest =>
      let batch := firstn batch_size (skipn i song_ids) in
      match user_playlist_add_tracks sp username playlist_id batch with
      | Err e => ([batch], [], Err e)
      | Ok _ =>
          let '(calls, logs, r) := batch_loop sp username playlist_id song_ids rest in
          (batch :: calls, batch_log i batch :: logs, r)
      end
  end.

Definition add_tracks_in_batches (sp : Spotify) (username playlist_id : string)
    (song_ids : list string) : list (list string) * list string * Result unit :=
  batch_loop sp username playlist_id song_ids
    (py_range 0 (List.length song_ids) batch_size).

(* ------------------------------------------------------------------ *)
(** * The phases of main *)

(** How the two worker phases of main end. *)
Inductive main_outcome :=
| NoValidArtists                        (* "No valid artists found ..." *)
| NoSongs                               (* "No songs found ..." *)
| CreatePlaylist (song_ids : list string).  (* Phase 3 is reached *)

(** Phase 1: [executor.map] keeps the input order; the results are folded
    into [valid_artists] and [all_logs]. *)
Definition phase1 (sp : Spotify) (artists : list string) : list ArtistData * list string :=
  fold_left
    (fun (st : list ArtistData * list string) (result : option ArtistData * list string) =>
       let '(valid_artists, all_logs) := st in
       let '(artist_data, logs) := result in
       (match artist_data with
        | Some a => app valid_artists [a]
        | None => valid_artists
        end, app all_logs logs))
    (map (fetch_artist_details sp) artists) ([], []).

(** Phase 2: the songs of every valid artist, folded into
    [all_song_details] and [all_logs]. *)
Definition phase2 (sp : Spotify) (valid_artists : list ArtistData)
    : list SongData * list string :=
  fold_left
    (fun (st : list SongData * list string) (result : list SongData * list string) =>
       let '(all_song_details, all_logs) := st in
       let '(artist_songs, logs) := result in
       (fold_left (fun acc song => app acc [song]) artist_songs all_song_details,
        app all_logs logs))
    (map (fun details => fetch_top_songs sp details remixes_allowed_genres) valid_artists)
    ([], []).

(** main from the list of artist names read from the input file to the
    [song_ids] handed to Phase 3, with the lines printed on the way. *)
Definition main_phases (sp : Spotify) (artists : list string) : main_outcome * list string :=
  let '(valid_artists, logs1) := phase1 sp artists in
  match valid_artists with
  | [] => (NoValidArtists, logs1)
  | _ :: _ =>
      let '(all_song_details, logs2) := phase2 sp valid_artists in
      match all_song_details with
      | [] => (NoSongs, app logs1 logs2)
      | _ :: _ => (CreatePlaylist (map song_id all_song_details), app logs1 logs2)
      end
  end.

(* ------------------------------------------------------------------ *)
(** * Reading the input file *)

(** [str.isspace] on ASCII: \t \n \v \f \r, the separators \x1c..\x1f and
    the space. *)
Definition is_space (c : ascii) : bool :=
  let n := nat_of_ascii c in
  ((9 <=? n) && (n <=? 13)) || ((28 <=? n) && (n <=? 32)).

Fixpoint lstrip (s : string) : string :=
  match s with
  | EmptyString => EmptyString
  | String c r => if is_space c then lstrip r else s
  end.

Fixpoint rstrip (s : string) : string :=
  match s with
  | EmptyString => EmptyString
  | String c r =>
      let r' := rstrip r in
      if is_space c && String.eqb r' "" then "" else String c r'
  end.

(** [str.strip()] with no argument. *)
Definition strip (s : string) : string := rstrip (lstrip s).

(** [[artist.strip() for artist in file if artist.strip()]], the file given
    as its lines (each with its line terminator, as file iteration yields). *)
Definition read_artists (lines : list string) : list string :=
  map strip (filter (fun artist => negb (String.eqb (strip artist) "")) lines).

(* ------------------------------------------------------------------ *)
(** * main *)

Inductive level := INFO | WARNING | ERROR.

(** What main writes: [logging.*] records and [print] lines. *)
Inductive event :=
| Log (lvl : level) (msg : string)
| Print (line : string).

(** How main ends: [sys.exit(code)] or a plain [return] (or the end of the
    function). *)
Inductive main_end :=
| ExitCode (code : nat)
| Return.

(** The authenticated client: the calls of the workers, and
    [sp.user_playlist_create(username, name, public=True)["id"]]. *)
Record Client := mk_Client {
  client_api : Spotify;
  user_playlist_create : string -> string -> Result string
}.

(** The process environment main reads. *)
Record Env := mk_Env {
  argv : list string;                            (* sys.argv *)
  input_file : option (list string);             (* coachella2026.txt, None if missing *)
  env_client_id : option string;                 (* os.getenv("CLIENT_ID") *)
  env_client_secret : option string;             (* os.getenv("CLIENT_SECRET") *)
  (* util.prompt_for_user_token(username, scope, client_id, client_secret, ...) *)
  prompt_for_user_token : string -> string -> string -> option string;
  (* spotipy.Spotify(auth=token) *)
  connect : string -> Client
}.

Definition playlist_name : string := "Coachella 2026".

(** Python truthiness of an optional string ([None] and [""] are false). *)
Definition truthy (o : option string) : bool :=
  match o with
  | None => false
  | Some s => negb (String.eqb s "")
  end.

Definition party_popper : string :=
  String (ascii_of_nat 240) (String (ascii_of_nat 159)
    (String (ascii_of_nat 142) (String (ascii_of_nat 137) EmptyString))).

Definition phase3_error (e : py_exc) : event :=
  match e with
  | SpotifyException m =>
      Log ERROR ("Spotify API Error during playlist creation or track addition: " ++ m)
  | _ => Log ERROR ("An unexpected error occurred: " ++ exc_str e)
  end.

(** Phase 3: the [try] block creating the playlist and adding the tracks,
    with its two [except] clauses.  Returns the batches sent and the
    events. *)
Definition phase3 (c : Client) (username : string) (song_ids : list string)
    : list (list string) * list event :=
  match user_playlist_create c username playlist_name with
  | Err e => ([], [phase3_error e])
  | Ok pid =>
      let '(calls, batch_logs, r) :=
        add_tracks_in_batches (client_api c) username pid song_ids in
      let evs := Log INFO ("Successfully created playlist: " ++ playlist_name)
                 :: map (Log INFO) batch_logs in
      match r with
      | Ok _ =>
          (calls, app evs [Log INFO (nl ++ "Playlist '" ++ playlist_name
                                     ++ "' was created successfully with "
                                     ++ str_nat (List.length song_ids) ++ " songs "
                                     ++ party_popper)])
      | Err e => (calls, app evs [phase3_error e])
      end
  end.

(** Phases 1 to 3 of main, once the client is connected. *)
Definition run_phases (c : Client) (username : string) (artists : list string)
    : list (list string) * list event :=
  let sp := client_api c in
  let '(valid_artists, logs1) := phase1 sp artists in
  let ev1 := Log INFO (nl ++ "--- PHASE 1: Fetching Artist IDs and Genres (Parallel) ---")
             :: map Print logs1 in
  match valid_artists with
  | [] => ([], app ev1 [Log WARNING "No valid artists found on Spotify. Exiting."])
  | _ :: _ =>
      let '(all_song_details, logs2) := phase2 sp valid_artists in
      let ev2 := app ev1 (Log INFO (nl ++ "--- PHASE 2: Fetching Top Songs (Parallel) ---")
                          :: map Print logs2) in
      match all_song_details with
      | [] => ([], app ev2 [Log WARNING "No songs found for any of the artists. Exiting."])
      | _ :: _ =>
          let song_ids := map song_id all_song_details in
          let '(calls, ev3) := phase3 c username song_ids in
          (calls, app ev2 (Log INFO (nl ++ "--- PHASE 3: Creating Playlist and Adding Tracks (Batch) ---")
                           :: ev3))
      end
  end.

(** main: the events, how it ends, and the batches sent to
    [user_playlist_add_tracks]. *)
Definition main (env : Env) : list event * main_end * list (list string) :=
  if List.length (argv env) <? 2 then
    ([Log ERROR "Usage: python script_name.py <spotify_username>"], ExitCode 1, [])
  else
    match input_file env with
    | None =>
        ([Log ERROR "Input file 'coachella2026.txt' not found. Please create it."],
         ExitCode 1, [])
    | Some lines =>
        let artists := read_artists lines in
        let username := nth 1 (argv env) "" in
        if negb (truthy (env_client_id env)) || negb (truthy (env_client_secret env)) then
          ([Log ERROR "CLIENT_ID and CLIENT_SECRET environment variables must be set."],
           ExitCode 1, [])
        else
          let client_id := match env_client_id env with Some s => s | None => "" end in
          let client_secret := match env_client_secret env with Some s => s | None => "" end in
          let token := prompt_for_user_token env username client_id client_secret in
          if negb (truthy token) then
            ([Log ERROR ("Cannot get token for " ++ username
                         ++ ". Check permissions or credentials.")], Return, [])
          else
            let c := connect env (match token with Some t => t | None => "" end) in
            let '(calls, evs) := run_phases c username artists in
            (evs, Return, calls)
    end.

(* ------------------------------------------------------------------ *)
(** * Sample API responses *)

Module Sample.

Definition strokes_tracks : list track :=
  [ mk_track "Reptilia" "s1";
    mk_track "Last Nite (Remix)" "s2";
    mk_track "Someday" "s3";
    mk_track "Hard to Explain (Edit)" "s4";
    mk_track "The Adults Are Talking (Radio Edit)" "s5";
    mk_track "Under Cover of Darkness" "s6";
    mk_track "You Only Live Once" "s7";
    mk_track "Ode to the Mets" "s8";
    mk_track "Is This It" "s9";
    mk_track "12:51" "s10";
    mk_track "Juicebox" "s11";
    mk_track "Heart in a Cage" "s12" ].

Definition fred_tracks : list track :=
  [ mk_track "Delilah (pull me out of this)" "f1";
    mk_track "Marea (we've lost dancing)" "f2";
    mk_track "Turn On The Lights again.. (Remix)" "f3" ].

Definition search_table : list (string * Result (list artist_item)) :=
  [ ("The Strokes", Ok [mk_artist_item "The Strokes" "id_strokes" ["indie rock"; "garage rock"]]);
    ("Fred again..", Ok [mk_artist_item "Fred again.." "id_fred" ["house"; "edm"]]);
    ("Daft Punk", Ok [mk_artist_item "Daft Punk (Tribute)" "id_tribute" [];
                      mk_artist_item "Daft Punk" "id_daft" ["french house"]]);
    ("Justice", Ok [mk_artist_item "Justice!" "id_justice" ["electro"]]);
    ("The xx", Ok [mk_artist_item "xx" "id_xx" ["indietronica"]]);
    ("Rate Limited", Err (SpotifyException "http status: 429")) ].

Fixpoint lookup_search (q : string) (tbl : list (string * Result (list artist_item)))
    : Result (list artist_item) :=
  match tbl with
  | [] => Ok []
  | (k, v) :: r => if String.eqb k q then v else lookup_search q r
  end.

Definition top_tracks_of (artist_id : string) : Result (list track) :=
  if String.eqb artist_id "id_strokes" then Ok strokes_tracks
  else if String.eqb artist_id "id_fred" then Ok fred_tracks
  else if String.eqb artist_id "id_err" then Err (OtherException "'tracks'")
  else Ok [].

Definition sp : Spotify :=
  mk_Spotify (fun q => lookup_search q search_table) top_tracks_of (fun _ _ _ => Ok tt).

Definition strokes : ArtistData :=
  mk_ArtistData "The Strokes" "id_strokes" ["indie rock"; "garage rock"].

Definition track_ids (n : nat) : list string :=
  map (fun k => "t" ++ str_nat k) (seq 0 n).

Definition flaky_add (username playlist_id : string) (batch : list string) : Result unit :=
  match batch with
  | first :: _ => if String.eqb first "t100" then Err (SpotifyException "http status: 500")
                  else Ok tt
  | [] => Ok tt
  end.

Definition sp_flaky : Spotify :=
  mk_Spotify (fun q => lookup_search q search_table) top_tracks_of flaky_add.

Definition client_flaky : Client := mk_Client sp_flaky (fun _ _ => Ok "pl1").

Definition client_no_create : Client :=
  mk_Client sp (fun _ _ => Err (SpotifyException "http status: 403")).


Definition env_no_secret : Env :=
  mk_Env ["festival.py"; "fan"] (Some ["The Strokes"]) (Some "cid") (Some "")
         (fun _ _ _ => Some "token") (fun _ => mk_Client sp (fun _ _ => Ok "pl1")).

End Sample.

(* ================================================================== *)
(** * Lemmas on the track loop *)

Lemma scan_tracks_selected (allow : bool) (ts acc : list track) (logs : list string) :
  List.length acc < 5 ->
  fst (scan_tracks allow ts acc logs)
  = app acc (firstn (5 - List.length acc) (filter (accepted allow) ts)).
Proof.
  revert acc logs.
  induction ts as [|t rest IH]; intros acc logs Hlen; cbn [scan_tracks filter].
  - rewrite firstn_nil, app_nil_r. reflexivity.
  - change (allow || negb (is_remix (track_name t))) with (accepted allow t).
    destruct (accepted allow t) eqn:E.
    + rewrite length_app; cbn [List.length].
      destruct (5 <=? List.length acc + 1) eqn:L.
      * apply Nat.leb_le in L.
        replace (5 - List.length acc) with 1 by lia. reflexivity.
      * apply Nat.leb_gt in L.
        rewrite IH by (rewrite length_app; cbn [List.length]; lia).
        rewrite length_app; cbn [List.length].
        replace (5 - List.length acc) with (S (5 - (List.length acc + 1))) by lia.
        cbn [firstn]. rewrite <- app_assoc. reflexivity.
    + destruct (5 <=? List.length acc) eqn:L.
      * apply Nat.leb_le in L. lia.
      * apply IH. exact Hlen.
Qed.

Lemma firstn_firstn_same {A} (n : nat) (l : list A) : firstn n (firstn n l) = firstn n l.
Proof. rewrite firstn_firstn, Nat.min_id. reflexivity. Qed.

Lemma fetch_top_songs_selected (sp : Spotify) (a : ArtistData) (rl : list string) :
  fst (fetch_top_songs sp a rl)
  = match artist_top_tracks sp (ad_id a) with
    | Ok ts =>
        map (to_song_data a)
          (firstn 5 (filter (accepted (allow_remixes_flag (ad_genres a) rl)) (firstn 10 ts)))
    | Err _ => []
    end.
Proof.
  unfold fetch_top_songs, fetch_top_songs_body.
  destruct (artist_top_tracks sp (ad_id a)) as [ts|e]; [|reflexivity].
  destruct ts as [|t0 ts]; [reflexivity|].
  set (flag := allow_remixes_flag (ad_genres a) rl).
  pose proof (scan_tracks_selected flag (firstn 10 (t0 :: ts)) [] [] ltac:(simpl; lia)) as H.
  destruct (scan_tracks flag (firstn 10 (t0 :: ts)) [] []) as [sel loop_logs].
  cbn [fst] in H |- *. rewrite H. cbn [List.length app]. rewrite Nat.sub_0_r, firstn_firstn_same.
  reflexivity.
Qed.

(** The examined prefix when the fifth accepted track is [t]. *)
Lemma scan_tracks_fifth (allow : bool) (pre post : list track) (t : track)
    (acc : list track) (logs : list string) :
  List.length acc + List.length (filter (accepted allow) pre) = 4 ->
  accepted allow t = true ->
  scan_tracks allow (app pre (t :: post)) acc logs
  = (app acc (app (filter (accepted allow) pre) [t]),
     app logs (map (track_log allow) (app pre [t]))).
Proof.
  revert acc logs.
  induction pre as [|u pre IH]; intros acc logs Hc Ht;
    cbn [app scan_tracks filter map List.length] in *.
  - change (allow || negb (is_remix (track_name t))) with (accepted allow t).
    rewrite Ht, length_app. cbn [List.length].
    replace (List.length acc + 1) with 5 by lia. cbn.
    unfold track_log. rewrite Ht. reflexivity.
  - change (allow || negb (is_remix (track_name u))) with (accepted allow u).
    unfold track_log at 1.
    destruct (accepted allow u) eqn:E; cbn [List.length] in Hc.
    + rewrite length_app. cbn [List.length].
      destruct (5 <=? List.length acc + 1) eqn:L.
      * apply Nat.leb_le in L. lia.
      * rewrite IH by (rewrite ?length_app; cbn [List.length]; lia || exact Ht).
        rewrite <- !app_assoc. reflexivity.
    + destruct (5 <=? List.length acc) eqn:L.
      * apply Nat.leb_le in L. lia.
      * rewrite IH by (lia || exact Ht).
        rewrite <- !app_assoc. reflexivity.
Qed.

(* ================================================================== *)
(** * Track selection (fetch_top_songs) *)

(** C1. [is_remix] holds iff the lowered track name contains "remix", or
    contains "edit" but neither "radio edit" nor "album edit"; the tracks
    fetch_top_songs keeps are the examined ones (the first 10 fetched, up to
    the fifth accepted) satisfying [allow_remixes or not is_remix], in
    order.  With the flag off "Song (Radio Edit)" and "Song (Album Edit)"
    are accepted and "Song (Edit)" and "Song Remix" rejected; with the flag
    on every track is accepted. *)
Theorem track_acceptance_rule :
  (forall song_name : string,
      is_remix song_name = true <->
      contains "remix" (lower song_name) = true
      \/ (contains "edit" (lower song_name) = true
          /\ contains "radio edit" (lower song_name) = false
          /\ contains "album edit" (lower song_name) = false))
  /\ (forall (sp : Spotify) (a : ArtistData) (rl : list string),
        fst (fetch_top_songs sp a rl)
        = match artist_top_tracks sp (ad_id a) with
          | Ok ts =>
              map (to_song_data a)
                (firstn 5 (filter (fun t => allow_remixes_flag (ad_genres a) rl
                                            || negb (is_remix (track_name t)))
                                  (firstn 10 ts)))
          | Err _ => []
          end)
  /\ (forall tid : string,
        accepted false (mk_track "Song (Radio Edit)" tid) = true
        /\ accepted false (mk_track "Song (Album Edit)" tid) = true
        /\ accepted false (mk_track "Song (Edit)" tid) = false
        /\ accepted false (mk_track "Song Remix" tid) = false)
  /\ (forall t : track, accepted true t = true).
Proof.
  split; [|split; [|split]].
  - intros song_name. unfold is_remix.
    destruct (contains "remix" (lower song_name)), (contains "edit" (lower song_name)),
      (contains "radio edit" (lower song_name)), (contains "album edit" (lower song_name));
      cbn; intuition congruence.
  - intros sp a rl. apply fetch_top_songs_selected.
  - intros tid. repeat split; reflexivity.
  - intros t. reflexivity.
Qed.

Lemma fetch_top_songs_at_most_5 (sp : Spotify) (a : ArtistData) (rl : list string) :
  List.length (fst (fetch_top_songs sp a rl)) <= 5.
Proof.
  rewrite fetch_top_songs_selected.
  destruct (artist_top_tracks sp (ad_id a)); [|cbn; lia].
  rewrite length_map. apply firstn_le_length.
Qed.

(** C6. fetch_top_songs returns at most 5 songs; when the fifth accepted
    track among the first 10 fetched is [t], preceded by [pre], the loop
    stops there: the log shows exactly [pre ++ [t]] examined and the songs
    are the accepted tracks of [pre] followed by [t]. *)
Theorem per_artist_cap :
  (forall (sp : Spotify) (a : ArtistData) (rl : list string),
      List.length (fst (fetch_top_songs sp a rl)) <= 5)
  /\ (forall (sp : Spotify) (a : ArtistData) (rl : list string)
             (ts pre post : list track) (t : track),
        let flag := allow_remixes_flag (ad_genres a) rl in
        artist_top_tracks sp (ad_id a) = Ok ts ->
        firstn 10 ts = app pre (t :: post) ->
        List.length (filter (accepted flag) pre) = 4 ->
        accepted flag t = true ->
        fetch_top_songs sp a rl
        = (map (to_song_data a) (app (filter (accepted flag) pre) [t]),
           app (top_songs_header a flag)
               (app (map (track_log flag) (app pre [t]))
                    ["  > Final Count: 5 songs added for " ++ ad_name a]))).
Proof.
  split.
  - exact fetch_top_songs_at_most_5.
  - intros sp a rl ts pre post t flag Hts H10 Hc Ht.
    unfold fetch_top_songs, fetch_top_songs_body. fold flag. rewrite Hts.
    destruct ts as [|t0 ts].
    + destruct pre; discriminate H10.
    + rewrite H10, (scan_tracks_fifth flag pre post t [] [] ltac:(cbn; lia) Ht).
      cbn [app].
      assert (Hlen : List.length (app (filter (accepted flag) pre) [t]) = 5)
        by (rewrite length_app, Hc; reflexivity).
      rewrite firstn_all2 by lia. rewrite length_map, Hlen. reflexivity.
Qed.

Lemma per_artist_cap_witness :
  let flag := allow_remixes_flag (ad_genres Sample.strokes) remixes_allowed_genres in
  let pre := firstn 6 Sample.strokes_tracks in
  let t := mk_track "You Only Live Once" "s7" in
  let post := firstn 3 (skipn 7 Sample.strokes_tracks) in
  artist_top_tracks Sample.sp (ad_id Sample.strokes) = Ok Sample.strokes_tracks
  /\ firstn 10 Sample.strokes_tracks = app pre (t :: post)
  /\ List.length (filter (accepted flag) pre) = 4
  /\ accepted flag t = true
  /\ fetch_top_songs Sample.sp Sample.strokes remixes_allowed_genres
     = (map (to_song_data Sample.strokes) (app (filter (accepted flag) pre) [t]),
        app (top_songs_header Sample.strokes flag)
            (app (map (track_log flag) (app pre [t]))
                 ["  > Final Count: 5 songs added for " ++ ad_name Sample.strokes])).
Proof.
  intros flag pre t post.
  assert (H1 : artist_top_tracks Sample.sp (ad_id Sample.strokes) = Ok Sample.strokes_tracks)
    by reflexivity.
  assert (H2 : firstn 10 Sample.strokes_tracks = app pre (t :: post)) by reflexivity.
  assert (H3 : List.length (filter (accepted flag) pre) = 4) by (vm_compute; reflexivity).
  assert (H4 : accepted flag t = true) by (vm_compute; reflexivity).
  split; [exact H1|]. split; [exact H2|]. split; [exact H3|]. split; [exact H4|].
  exact (proj2 per_artist_cap Sample.sp Sample.strokes remixes_allowed_genres
           Sample.strokes_tracks pre post t H1 H2 H3 H4).
Defined.

(** C5. The remix flag of fetch_top_songs, with the token list main passes,
    is true iff some genre of the artist contains one of the 8 tokens as a
    substring; it depends on nothing but the genre list.  "deep house",
    equal to no token, sets it. *)
Theorem remix_allowance :
  (forall genres : list string,
      allow_remixes_flag genres remixes_allowed_genres = true <->
      exists genre remix_genre,
        In genre genres
        /\ In remix_genre ["house"; "dub"; "trance"; "breakbeat"; "bass"; "techno"; "edm"; "dance"]
        /\ contains remix_genre genre = true)
  /\ (forall (sp : Spotify) (a : ArtistData),
        nth_error (snd (fetch_top_songs sp a remixes_allowed_genres)) 1
        = Some ("  > Remix Check: Genres permit remixes/edits? "
                ++ str_bool (allow_remixes_flag (ad_genres a) remixes_allowed_genres)))
  /\ allow_remixes_flag ["deep house"] remixes_allowed_genres = true
  /\ ~ In "deep house" remixes_allowed_genres.
Proof.
  split; [|split; [|split]].
  - intros genres. unfold allow_remixes_flag. rewrite existsb_exists.
    split.
    + intros (genre & Hin & Hex). apply existsb_exists in Hex.
      destruct Hex as (rg & Hrg & Hc). exists genre, rg. auto.
    + intros (genre & rg & Hin & Hrg & Hc). exists genre. split; [exact Hin|].
      apply existsb_exists. exists rg. auto.
  - intros sp a. unfold fetch_top_songs.
    destruct (fetch_top_songs_body sp a _) as [[tracks more]|e]; reflexivity.
  - reflexivity.
  - cbn. intuition discriminate.
Qed.

(* ================================================================== *)
(** * Error containment and totality of the workers *)

Lemma error_log_prefix_resolve (artist_name : string) (e : py_exc) :
  prefix "[ERROR]" (resolve_error_log artist_name e) = true.
Proof. reflexivity. Qed.

Lemma error_log_prefix_top_songs (a : ArtistData) (e : py_exc) :
  prefix "[ERROR]" (top_songs_error_log a e) = true.
Proof. destruct e; reflexivity. Qed.

(** C9. Whatever the [try] block of fetch_artist_details raises (the
    search call, or any later step), the worker returns no artist and one
    [ERROR] log line; when [sp.artist_top_tracks] raises, fetch_top_songs
    returns no song and ends its log with an [ERROR] line.  Both workers
    are total functions to a (result, logs) pair. *)
Theorem worker_error_containment :
  (forall (sp : Spotify) (artist_name : string) (e : py_exc),
      fetch_artist_details_body festival_difflib sp artist_name = Err e ->
      fetch_artist_details sp artist_name = (None, [resolve_error_log artist_name e])
      /\ prefix "[ERROR]" (resolve_error_log artist_name e) = true)
  /\ (forall (sp : Spotify) (artist_name : string) (e : py_exc),
        search sp artist_name = Err e ->
        fetch_artist_details sp artist_name = (None, [resolve_error_log artist_name e]))
  /\ (forall (sp : Spotify) (a : ArtistData) (rl : list string) (e : py_exc),
        artist_top_tracks sp (ad_id a) = Err e ->
        fetch_top_songs sp a rl
        = ([], app (top_songs_header a (allow_remixes_flag (ad_genres a) rl))
                   [top_songs_error_log a e])
        /\ prefix "[ERROR]" (top_songs_error_log a e) = true).
Proof.
  split; [|split].
  - intros sp n e H. unfold fetch_artist_details, fetch_artist_details_in.
    rewrite H. split; [reflexivity|apply error_log_prefix_resolve].
  - intros sp n e H. unfold fetch_artist_details, fetch_artist_details_in,
      fetch_artist_details_body. rewrite H. reflexivity.
  - intros sp a rl e H. unfold fetch_top_songs, fetch_top_songs_body.
    rewrite H. split; [reflexivity|apply error_log_prefix_top_songs].
Qed.

Lemma worker_error_containment_witness :
  let err_artist := mk_ArtistData "Broken" "id_err" [] in
  (search Sample.sp "Rate Limited" = Err (SpotifyException "http status: 429")
   /\ fetch_artist_details Sample.sp "Rate Limited"
      = (None, [resolve_error_log "Rate Limited" (SpotifyException "http status: 429")]))
  /\ (fetch_artist_details_body festival_difflib Sample.sp "Daft Punk" = Err (NameError "difflib")
      /\ fetch_artist_details Sample.sp "Daft Punk"
         = (None, [resolve_error_log "Daft Punk" (NameError "difflib")]))
  /\ (artist_top_tracks Sample.sp (ad_id err_artist) = Err (OtherException "'tracks'")
      /\ fst (fetch_top_songs Sample.sp err_artist remixes_allowed_genres) = []).
Proof.
  intros err_artist.
  assert (H1 : search Sample.sp "Rate Limited" = Err (SpotifyException "http status: 429"))
    by reflexivity.
  assert (H2 : fetch_artist_details_body festival_difflib Sample.sp "Daft Punk"
               = Err (NameError "difflib")) by (vm_compute; reflexivity).
  assert (H3 : artist_top_tracks Sample.sp (ad_id err_artist) = Err (OtherException "'tracks'"))
    by reflexivity.
  destruct worker_error_containment as (W1 & W2 & W3).
  split; [split; [exact H1|exact (W2 _ _ _ H1)]|].
  split; [split; [exact H2|exact (proj1 (W1 _ _ _ H2))]|].
  split; [exact H3|].
  rewrite (proj1 (W3 _ _ _ _ H3)). reflexivity.
Defined.

(** C10. In fetch_artist_details, whenever the candidate scan ends with no
    match the candidate list is non-empty, because the empty search result
    returned earlier; so the read of [items[0]["name"]] for the warning is
    in bounds.  This holds for every binding of [difflib], and the body
    never raises [IndexError] unless the search call itself does. *)
Theorem no_match_read_in_bounds :
  (forall (difflib : option ratio_fn) (sp : Spotify) (artist_name : string)
          (items : list artist_item),
      search sp artist_name = Ok items ->
      scan_items difflib (lower artist_name) items = Ok None ->
      (items = [] /\ fetch_artist_details_in difflib sp artist_name
                     = (None, [not_found_log artist_name]))
      \/ (exists top rest,
             items = top :: rest
             /\ nth_error items 0 = Some top
             /\ fetch_artist_details_in difflib sp artist_name
                = (None, [no_close_match_log artist_name (item_name top)])))
  /\ (forall (difflib : option ratio_fn) (sp : Spotify) (artist_name : string),
        fetch_artist_details_body difflib sp artist_name = Err IndexError ->
        search sp artist_name = Err IndexError).
Proof.
  split.
  - intros difflib sp n items Hs Hscan.
    unfold fetch_artist_details_in, fetch_artist_details_body. rewrite Hs.
    destruct items as [|top rest].
    + left. split; reflexivity.
    + right. exists top, rest. rewrite Hscan. repeat split.
  - intros difflib sp n.
    unfold fetch_artist_details_body.
    destruct (search sp n) as [items|e]; [|intros H; injection H as ->; reflexivity].
    destruct items as [|top rest]; [discriminate|].
    destruct (scan_items difflib (lower n) (top :: rest)) as [[best|]|e] eqn:Hscan.
    + discriminate.
    + discriminate.
    + intros H. injection H as ->.
      (* the scan raises NameError only *)
      exfalso. revert Hscan. generalize (top :: rest).
      induction l as [|it r IH]; cbn [scan_items]; [discriminate|].
      destruct (String.eqb _ _); [discriminate|].
      destruct difflib as [ratio|]; [|discriminate].
      destruct (negb _); [discriminate|].
      destruct (_ && _); [discriminate|exact IH].
Qed.

Lemma no_match_read_in_bounds_witness :
  let difflib := Some (fun _ _ : string => 0%Q) in
  search Sample.sp "Justice" = Ok [mk_artist_item "Justice!" "id_justice" ["electro"]]
  /\ scan_items difflib (lower "Justice") [mk_artist_item "Justice!" "id_justice" ["electro"]]
     = Ok None
  /\ fetch_artist_details_in difflib Sample.sp "Justice"
     = (None, [no_close_match_log "Justice" "Justice!"]).
Proof.
  intros difflib.
  assert (H1 : search Sample.sp "Justice"
               = Ok [mk_artist_item "Justice!" "id_justice" ["electro"]]) by reflexivity.
  assert (H2 : scan_items difflib (lower "Justice")
                 [mk_artist_item "Justice!" "id_justice" ["electro"]] = Ok None)
    by (vm_compute; reflexivity).
  split; [exact H1|]. split; [exact H2|].
  destruct (proj1 no_match_read_in_bounds difflib Sample.sp "Justice" _ H1 H2)
    as [[Hnil _]|(top & rest & Heq & _ & Hres)].
  - discriminate Hnil.
  - rewrite Hres. injection Heq as Ht Hr. subst top. reflexivity.
Defined.

(* ================================================================== *)
(** * The candidate scan of fetch_artist_details *)

(** The three per-candidate conditions, for a bound [difflib]. *)
Definition candidate_matches (ratio : ratio_fn) (normalized_query : string)
    (item : artist_item) : bool :=
  String.eqb (lower (item_name item)) normalized_query
  || negb (Qle_bool (ratio normalized_query (lower (item_name item))) (9 # 10))
  || (startswith normalized_query "the "
      && String.eqb (lower (item_name item)) (slice_from 4 normalized_query)).

(** Were [difflib] bound, the scan would pick the first candidate meeting
    any of the three conditions. *)
Lemma scan_items_bound_first_match (ratio : ratio_fn) (q : string)
    (items : list artist_item) :
  scan_items (Some ratio) q items = Ok (find (candidate_matches ratio q) items).
Proof.
  induction items as [|it rest IH]; [reflexivity|].
  cbn [scan_items find]. unfold candidate_matches at 1.
  destruct (String.eqb _ _); [reflexivity|].
  destruct (negb _); [reflexivity|].
  destruct (_ && _); [reflexivity|exact IH].
Qed.

(** As festival.py stands, a search whose first candidate is not a
    case-insensitive exact match reaches [difflib.SequenceMatcher], raises
    [NameError], and the artist is skipped with an [ERROR] line. *)
Lemma resolve_non_exact_head_raises (sp : Spotify) (artist_name : string)
    (item : artist_item) (rest : list artist_item) :
  search sp artist_name = Ok (item :: rest) ->
  String.eqb (lower (item_name item)) (lower artist_name) = false ->
  fetch_artist_details sp artist_name
  = (None, [resolve_error_log artist_name (NameError "difflib")]).
Proof.
  intros Hs He.
  unfold fetch_artist_details, fetch_artist_details_in, fetch_artist_details_body.
  rewrite Hs. cbn [scan_items]. rewrite He. reflexivity.
Qed.

(** C2 (as the code runs).  Query "Daft Punk" with candidates
    "Daft Punk (Tribute)" (no exact match, similarity 18/28, no "the "
    prefix) then "Daft Punk" (exact match): the scan should pick the second
    candidate, but the similarity step on the first raises [NameError]
    and the artist is reported as not matched. *)
Theorem resolve_scan_order_failing_input :
  search Sample.sp "Daft Punk"
  = Ok [mk_artist_item "Daft Punk (Tribute)" "id_tribute" [];
        mk_artist_item "Daft Punk" "id_daft" ["french house"]]
  /\ fetch_artist_details Sample.sp "Daft Punk"
     = (None, ["[ERROR] Fetching details for 'Daft Punk' failed: name 'difflib' is not defined. Skipping."]).
Proof. split; vm_compute; reflexivity. Qed.

(** C3 (as the code runs).  Query "Justice" with the single candidate
    "Justice!" (similarity 14/15 > 0.90): the similarity rule should match
    it, but evaluating [difflib] raises [NameError]. *)
Theorem similarity_rule_failing_input :
  search Sample.sp "Justice" = Ok [mk_artist_item "Justice!" "id_justice" ["electro"]]
  /\ fetch_artist_details Sample.sp "Justice"
     = (None, ["[ERROR] Fetching details for 'Justice' failed: name 'difflib' is not defined. Skipping."]).
Proof. split; vm_compute; reflexivity. Qed.

(** C4 (as the code runs).  Query "The xx" with the single candidate "xx"
    (the query with its "the " prefix stripped): the prefix rule should
    select it, but the similarity step before it raises [NameError]. *)
Theorem the_prefix_rule_failing_input :
  search Sample.sp "The xx" = Ok [mk_artist_item "xx" "id_xx" ["indietronica"]]
  /\ startswith (lower "The xx") "the " = true
  /\ String.eqb (lower "xx") (slice_from 4 (lower "The xx")) = true
  /\ fetch_artist_details Sample.sp "The xx"
     = (None, ["[ERROR] Fetching details for 'The xx' failed: name 'difflib' is not defined. Skipping."]).
Proof. repeat split; vm_compute; reflexivity. Qed.

(* ================================================================== *)
(** * The phases of main *)

Definition option_list {A} (o : option A) : list A :=
  match o with Some a => [a] | None => [] end.

(** The valid artists, in input order. *)
Definition resolved_artists (sp : Spotify) (artists : list string) : list ArtistData :=
  flat_map (fun n => option_list (fst (fetch_artist_details sp n))) artists.

Lemma phase1_fold (sp : Spotify) (artists : list string)
    (valid : list ArtistData) (logs : list string) :
  fold_left
    (fun (st : list ArtistData * list string) (result : option ArtistData * list string) =>
       let '(valid_artists, all_logs) := st in
       let '(artist_data, logs) := result in
       (match artist_data with
        | Some a => app valid_artists [a]
        | None => valid_artists
        end, app all_logs logs))
    (map (fetch_artist_details sp) artists) (valid, logs)
  = (app valid (resolved_artists sp artists),
     app logs (List.concat (map (fun n => snd (fetch_artist_details sp n)) artists))).
Proof.
  revert valid logs. unfold resolved_artists.
  induction artists as [|n rest IH]; intros valid logs; cbn [map fold_left flat_map List.concat].
  - rewrite !app_nil_r. reflexivity.
  - destruct (fetch_artist_details sp n) as [[a|] lg]; rewrite IH; cbn [fst snd option_list];
      rewrite <- !app_assoc; reflexivity.
Qed.

Lemma append_each {A} (xs acc : list A) :
  fold_left (fun acc x => app acc [x]) xs acc = app acc xs.
Proof.
  revert acc. induction xs as [|x r IH]; intros acc; cbn.
  - rewrite app_nil_r. reflexivity.
  - rewrite IH, <- app_assoc. reflexivity.
Qed.

Lemma phase2_fold (sp : Spotify) (valid : list ArtistData)
    (songs : list SongData) (logs : list string) :
  fold_left
    (fun (st : list SongData * list string) (result : list SongData * list string) =>
       let '(all_song_details, all_logs) := st in
       let '(artist_songs, logs) := result in
       (fold_left (fun acc song => app acc [song]) artist_songs all_song_details,
        app all_logs logs))
    (map (fun details => fetch_top_songs sp details remixes_allowed_genres) valid)
    (songs, logs)
  = (app songs (List.concat (map (fun a => fst (fetch_top_songs sp a remixes_allowed_genres)) valid)),
     app logs (List.concat (map (fun a => snd (fetch_top_songs sp a remixes_allowed_genres)) valid))).
Proof.
  revert songs logs.
  induction valid as [|a rest IH]; intros songs logs; cbn [map fold_left List.concat].
  - rewrite !app_nil_r. reflexivity.
  - destruct (fetch_top_songs sp a remixes_allowed_genres) as [s lg] eqn:E.
    rewrite append_each, IH. cbn [fst snd]. rewrite <- !app_assoc. reflexivity.
Qed.

(** C7. When main reaches Phase 3, the song ids it hands to playlist
    creation are the concatenation, in input order of the artists that
    resolved, of each artist's selected songs (at most 5, in acceptance
    order), with nothing reordered, dropped or duplicated. *)
Theorem main_track_list :
  forall (sp : Spotify) (artists : list string) (song_ids printed : list string),
    main_phases sp artists = (CreatePlaylist song_ids, printed) ->
    song_ids
    = List.concat (map (fun a => map song_id (fst (fetch_top_songs sp a remixes_allowed_genres)))
                  (resolved_artists sp artists))
    /\ Forall (fun a => List.length (fst (fetch_top_songs sp a remixes_allowed_genres)) <= 5)
              (resolved_artists sp artists).
Proof.
  intros sp artists song_ids printed H.
  unfold main_phases, phase1, phase2 in H.
  rewrite phase1_fold in H. cbn [app] in H.
  destruct (resolved_artists sp artists) as [|a0 rest] eqn:Ev; [discriminate H|].
  rewrite phase2_fold in H. cbn [app] in H.
  split.
  - destruct (List.concat _) as [|s0 srest] eqn:Es; [discriminate H|].
    injection H as Hids _. subst song_ids.
    change (song_id s0 :: map song_id srest) with (map song_id (s0 :: srest)).
    rewrite <- Es, concat_map, map_map. reflexivity.
  - apply Forall_forall. intros a _. apply fetch_top_songs_at_most_5.
Qed.

Lemma main_track_list_witness :
  let artists := ["The Strokes"; "Nobody"; "Fred again.."] in
  main_phases Sample.sp artists
  = (CreatePlaylist ["s1"; "s3"; "s5"; "s6"; "s7"; "f1"; "f2"; "f3"],
     snd (main_phases Sample.sp artists))
  /\ ["s1"; "s3"; "s5"; "s6"; "s7"; "f1"; "f2"; "f3"]
     = List.concat (map (fun a => map song_id (fst (fetch_top_songs Sample.sp a remixes_allowed_genres)))
                        (resolved_artists Sample.sp artists)).
Proof.
  intros artists.
  assert (H : main_phases Sample.sp artists
              = (CreatePlaylist ["s1"; "s3"; "s5"; "s6"; "s7"; "f1"; "f2"; "f3"],
                 snd (main_phases Sample.sp artists))) by (vm_compute; reflexivity).
  split; [exact H|].
  exact (proj1 (main_track_list Sample.sp artists _ _ H)).
Defined.

(* ================================================================== *)
(** * add_tracks_in_batches *)

(** The [k]-th slice of at most [batch_size] ids. *)
Definition slice_k (song_ids : list string) (k : nat) : list string :=
  firstn batch_size (skipn (batch_size * k) song_ids).

Lemma py_range_batches (n : nat) :
  py_range 0 n batch_size = map (fun k => batch_size * k) (seq 0 ((n + 99) / 100)).
Proof.
  unfold py_range, batch_size. replace (n - 0 + 100 - 1) with (n + 99) by lia.
  apply map_ext. intros k. lia.
Qed.

Lemma batch_loop_normal (sp : Spotify) (u p : string) (song_ids : list string)
    (is : list nat) (calls : list (list string)) (logs : list string) :
  batch_loop sp u p song_ids is = (calls, logs, Ok tt) ->
  calls = map (fun i => firstn batch_size (skipn i song_ids)) is
  /\ logs = map (fun i => batch_log i (firstn batch_size (skipn i song_ids))) is.
Proof.
  revert calls logs.
  induction is as [|i rest IH]; intros calls logs H; cbn [batch_loop] in H.
  - injection H as <- <-. split; reflexivity.
  - destruct (user_playlist_add_tracks sp u p _); [|discriminate H].
    destruct (batch_loop sp u p song_ids rest) as [[calls' logs'] r] eqn:E.
    injection H as <- <- ->. destruct (IH calls' logs' eq_refl) as [-> ->].
    split; reflexivity.
Qed.

Lemma batch_loop_accepting (sp : Spotify) (u p : string) (song_ids : list string)
    (is : list nat) :
  (forall batch, user_playlist_add_tracks sp u p batch = Ok tt) ->
  snd (batch_loop sp u p song_ids is) = Ok tt.
Proof.
  intros Hok. induction is as [|i rest IH]; [reflexivity|].
  cbn [batch_loop]. rewrite Hok.
  destruct (batch_loop sp u p song_ids rest) as [[c l] r]. exact IH.
Qed.

Lemma slices_concat (m : nat) (l : list string) :
  List.length l <= batch_size * m ->
  List.concat (map (slice_k l) (seq 0 m)) = l.
Proof.
  unfold slice_k, batch_size. revert l.
  induction m as [|m IH]; intros l Hl.
  - destruct l; [reflexivity|cbn in Hl; lia].
  - cbn [seq map List.concat]. rewrite <- seq_shift, map_map.
    rewrite Nat.mul_0_r. cbn [skipn].
    rewrite (map_ext (fun x => firstn 100 (skipn (100 * S x) l))
                     (fun x => firstn 100 (skipn (100 * x) (skipn 100 l)))).
    + rewrite IH by (rewrite length_skipn; lia). apply firstn_skipn.
    + intros x. rewrite skipn_skipn. f_equal. f_equal. lia.
Qed.

Lemma slice_k_length (l : list string) (k : nat) :
  k < (List.length l + 99) / 100 ->
  0 < List.length (slice_k l k) <= 100.
Proof.
  intros Hk. unfold slice_k, batch_size.
  rewrite length_firstn, length_skipn.
  assert (100 * k < List.length l).
  { destruct (Nat.lt_ge_cases (100 * k) (List.length l)) as [H|H]; [exact H|].
    assert ((List.length l + 99) / 100 <= k); [|lia].
    apply Nat.lt_succ_r, Nat.Div0.div_lt_upper_bound; lia. }
  lia.
Qed.

(** C8. When add_tracks_in_batches returns normally on [n] ids, it has
    called [sp.user_playlist_add_tracks] exactly ceil(n/100) times, on the
    consecutive slices of at most 100 ids in list order, whose
    concatenation is the input, and has logged "Added batch k (size
    tracks)" for each; an API that accepts every batch makes it return
    normally.  For 150 ids: two calls, the first 100 ids then the other 50,
    logged as batch 1 and batch 2. *)
Theorem batch_add_calls :
  (forall (sp : Spotify) (u p : string) (song_ids : list string),
      (forall batch, user_playlist_add_tracks sp u p batch = Ok tt) ->
      snd (add_tracks_in_batches sp u p song_ids) = Ok tt)
  /\ (forall (sp : Spotify) (u p : string) (song_ids : list string)
             (calls : list (list string)) (logs : list string),
        add_tracks_in_batches sp u p song_ids = (calls, logs, Ok tt) ->
        let nb := (List.length song_ids + 99) / 100 in
        List.length calls = nb
        /\ calls = map (slice_k song_ids) (seq 0 nb)
        /\ List.concat calls = song_ids
        /\ Forall (fun batch => 0 < List.length batch <= 100) calls
        /\ logs = map (fun k => "Added batch " ++ str_nat (k + 1) ++ " ("
                                 ++ str_nat (List.length (slice_k song_ids k))
                                 ++ " tracks) to the playlist.")
                      (seq 0 nb))
  /\ (forall (sp : Spotify) (u p : string) (song_ids : list string)
             (calls : list (list string)) (logs : list string),
        List.length song_ids = 150 ->
        add_tracks_in_batches sp u p song_ids = (calls, logs, Ok tt) ->
        calls = [firstn 100 song_ids; skipn 100 song_ids]
        /\ logs = ["Added batch 1 (100 tracks) to the playlist.";
                   "Added batch 2 (50 tracks) to the playlist."]).
Proof.
  assert (Hgen : forall (sp : Spotify) (u p : string) (song_ids : list string)
                        (calls : list (list string)) (logs : list string),
             add_tracks_in_batches sp u p song_ids = (calls, logs, Ok tt) ->
             calls = map (slice_k song_ids) (seq 0 ((List.length song_ids + 99) / 100))
             /\ logs = map (fun k => "Added batch " ++ str_nat (k + 1) ++ " ("
                                      ++ str_nat (List.length (slice_k song_ids k))
                                      ++ " tracks) to the playlist.")
                           (seq 0 ((List.length song_ids + 99) / 100))).
  { intros sp u p ids calls logs H.
    unfold add_tracks_in_batches in H. rewrite py_range_batches in H.
    destruct (batch_loop_normal _ _ _ _ _ _ _ H) as [-> ->].
    rewrite !map_map. split; apply map_ext; intros k; [reflexivity|].
    unfold batch_log, slice_k, batch_size.
    rewrite (Nat.mul_comm 100 k), Nat.div_mul by lia. reflexivity. }
  split; [|split].
  - intros sp u p ids Hok. unfold add_tracks_in_batches.
    apply batch_loop_accepting. exact Hok.
  - intros sp u p ids calls logs H nb.
    destruct (Hgen _ _ _ _ _ _ H) as [Hc Hl]. fold nb in Hc, Hl.
    split; [rewrite Hc, length_map, length_seq; reflexivity|].
    split; [exact Hc|].
    split; [rewrite Hc; apply slices_concat; unfold nb, batch_size;
            pose proof (Nat.div_mod_eq (List.length ids + 99) 100) as Hd;
            pose proof (Nat.mod_upper_bound (List.length ids + 99) 100 ltac:(lia)); lia|].
    split; [|exact Hl].
    rewrite Hc. apply Forall_map, Forall_forall. intros k Hk.
    apply in_seq in Hk. apply slice_k_length. unfold nb in Hk. lia.
  - intros sp u p ids calls logs Hlen H.
    destruct (Hgen _ _ _ _ _ _ H) as [-> ->]. rewrite Hlen.
    assert (H2 : List.length (skipn 100 ids) = 50) by (rewrite length_skipn; lia).
    assert (H1 : List.length (firstn 100 ids) = 100) by (rewrite length_firstn; lia).
    unfold slice_k, batch_size.
    replace ((150 + 99) / 100) with 2 by reflexivity.
    cbn [seq map]. rewrite Nat.mul_0_r, Nat.mul_1_r. cbn [skipn].
    rewrite (firstn_all2 (skipn 100 ids)) by lia.
    split; [reflexivity|].
    rewrite H1, H2. reflexivity.
Qed.

Lemma batch_add_calls_witness :
  let ids := Sample.track_ids 150 in
  let r := add_tracks_in_batches Sample.sp "user" "playlist" ids in
  snd r = Ok tt
  /\ r = (fst (fst r), snd (fst r), Ok tt)
  /\ List.length ids = 150
  /\ List.length (fst (fst r)) = 2
  /\ fst (fst r) = [firstn 100 ids; skipn 100 ids]
  /\ snd (fst r) = ["Added batch 1 (100 tracks) to the playlist.";
                    "Added batch 2 (50 tracks) to the playlist."].
Proof.
  intros ids r.
  destruct batch_add_calls as (B1 & B2 & B3).
  assert (Hok : snd r = Ok tt) by (apply B1; intros batch; reflexivity).
  assert (Hr : r = (fst (fst r), snd (fst r), Ok tt)).
  { rewrite <- Hok. destruct r as [[c l] x]. reflexivity. }
  assert (Hlen : List.length ids = 150) by (vm_compute; reflexivity).
  destruct (B3 _ _ _ _ _ _ Hlen Hr) as [Hc Hl].
  split; [exact Hok|]. split; [exact Hr|]. split; [exact Hlen|].
  split; [exact (proj1 (B2 _ _ _ _ _ _ Hr))|].
  split; [exact Hc|exact Hl].
Defined.

(* ================================================================== *)
(** * Case folding and stripping *)

Lemma lower_char_idem (c : ascii) : lower_char (lower_char c) = lower_char c.
Proof.
  destruct c as [b0 b1 b2 b3 b4 b5 b6 b7].
  destruct b0, b1, b2, b3, b4, b5, b6, b7; reflexivity.
Qed.

Lemma lower_idem (s : string) : lower (lower s) = lower s.
Proof.
  induction s as [|c r IH]; [reflexivity|].
  cbn [lower]. rewrite lower_char_idem, IH. reflexivity.
Qed.

(** The remix/edit test of fetch_top_songs ignores letter case: a track
    name and its lowered form are classified alike, so whether a track is
    accepted depends on its name only up to case. *)
Theorem is_remix_case_insensitive (song_name : string) :
  is_remix (lower song_name) = is_remix song_name.
Proof. unfold is_remix. rewrite lower_idem. reflexivity. Qed.

Lemma lstrip_idem (s : string) : lstrip (lstrip s) = lstrip s.
Proof.
  induction s as [|c r IH]; [reflexivity|].
  cbn [lstrip]. destruct (is_space c) eqn:E; [exact IH|].
  cbn [lstrip]. rewrite E. reflexivity.
Qed.

Lemma rstrip_idem (s : string) : rstrip (rstrip s) = rstrip s.
Proof.
  induction s as [|c r IH]; [reflexivity|].
  cbn [rstrip].
  destruct (is_space c && String.eqb (rstrip r) "") eqn:E; [reflexivity|].
  cbn [rstrip]. rewrite IH, E. reflexivity.
Qed.

(** [lstrip] leaves nothing to strip on the left. *)
Definition no_leading_space (s : string) : Prop :=
  match s with
  | EmptyString => True
  | String c _ => is_space c = false
  end.

Lemma lstrip_no_leading (s : string) : no_leading_space (lstrip s).
Proof.
  induction s as [|c r IH]; [exact I|].
  cbn [lstrip]. destruct (is_space c) eqn:E; [exact IH|exact E].
Qed.

Lemma rstrip_keeps_leading (s : string) :
  no_leading_space s -> no_leading_space (rstrip s) /\ lstrip (rstrip s) = rstrip s.
Proof.
  destruct s as [|c r]; [intros _; split; [exact I|reflexivity]|].
  cbn [no_leading_space rstrip]. intros Hc. rewrite Hc. cbn [andb].
  split; [exact Hc|]. cbn [lstrip]. rewrite Hc. reflexivity.
Qed.

Lemma strip_idem (s : string) : strip (strip s) = strip s.
Proof.
  unfold strip.
  destruct (rstrip_keeps_leading (lstrip s) (lstrip_no_leading s)) as [_ ->].
  apply rstrip_idem.
Qed.

(** main's reading of the input file: every artist name it keeps is
    non-empty and already stripped (no surrounding whitespace), it comes
    from a line of the file, and a line whose stripped form is non-empty is
    kept as that stripped form; blank or whitespace-only lines are dropped. *)
Theorem read_artists_stripped (lines : list string) :
  (forall name, In name (read_artists lines) ->
      name <> "" /\ strip name = name
      /\ exists line, In line lines /\ strip line = name)
  /\ (forall line, In line lines -> strip line <> "" -> In (strip line) (read_artists lines)).
Proof.
  unfold read_artists. split.
  - intros name Hin. apply in_map_iff in Hin.
    destruct Hin as (line & <- & Hf). apply filter_In in Hf. destruct Hf as [Hl Hne].
    split; [|split].
    + intros Heq. rewrite Heq in Hne. discriminate Hne.
    + apply strip_idem.
    + exists line. split; [exact Hl|reflexivity].
  - intros line Hl Hne. apply in_map. apply filter_In. split; [exact Hl|].
    destruct (String.eqb (strip line) "") eqn:E; [|reflexivity].
    apply String.eqb_eq in E. contradiction.
Qed.

(* ================================================================== *)
(** * What the resolver returns *)

(** As festival.py stands ([difflib] unbound), fetch_artist_details
    returns an artist exactly when the first search result's name equals
    the query up to letter case, and the artist is that first result's
    name, id and genres. *)
Theorem resolve_succeeds_iff_first_exact (sp : Spotify) (artist_name : string)
    (a : ArtistData) :
  fst (fetch_artist_details sp artist_name) = Some a <->
  exists item rest,
    search sp artist_name = Ok (item :: rest)
    /\ lower (item_name item) = lower artist_name
    /\ a = mk_ArtistData (item_name item) (item_id item) (item_genres item).
Proof.
  unfold fetch_artist_details, fetch_artist_details_in, fetch_artist_details_body.
  split.
  - destruct (search sp artist_name) as [items|e]; [|discriminate].
    destruct items as [|item rest]; [discriminate|].
    cbn [scan_items]. destruct (String.eqb (lower (item_name item)) (lower artist_name)) eqn:E;
      [|discriminate].
    intros H. injection H as <-. apply String.eqb_eq in E.
    exists item, rest. auto.
  - intros (item & rest & Hs & He & ->). rewrite Hs. cbn [scan_items].
    rewrite He, String.eqb_refl. reflexivity.
Qed.

Lemma scan_items_in (difflib : option ratio_fn) (q : string) (items : list artist_item)
    (best : artist_item) :
  scan_items difflib q items = Ok (Some best) -> In best items.
Proof.
  induction items as [|it rest IH]; cbn [scan_items]; [discriminate|].
  destruct (String.eqb _ _); [intros H; injection H as <-; left; reflexivity|].
  destruct difflib as [ratio|]; [|discriminate].
  destruct (negb _); [intros H; injection H as <-; left; reflexivity|].
  destruct (_ && _); [intros H; injection H as <-; left; reflexivity|].
  intros H. right. exact (IH H).
Qed.

(** For any binding of [difflib], an artist returned by
    fetch_artist_details is one of the search candidates (its name, id and
    genres), and the worker's log then has the four detail lines. *)
Theorem resolve_returns_a_candidate (difflib : option ratio_fn) (sp : Spotify)
    (artist_name : string) (a : ArtistData) :
  fst (fetch_artist_details_in difflib sp artist_name) = Some a ->
  exists items item,
    search sp artist_name = Ok items /\ In item items
    /\ a = mk_ArtistData (item_name item) (item_id item) (item_genres item)
    /\ snd (fetch_artist_details_in difflib sp artist_name) = details_logs artist_name item.
Proof.
  unfold fetch_artist_details_in, fetch_artist_details_body.
  destruct (search sp artist_name) as [items|e]; [|discriminate].
  destruct items as [|i0 rest]; [discriminate|].
  destruct (scan_items difflib (lower artist_name) (i0 :: rest)) as [[best|]|e] eqn:Hs;
    [|discriminate|discriminate].
  intros H. injection H as <-.
  exists (i0 :: rest), best. repeat split. exact (scan_items_in _ _ _ _ Hs).
Qed.

Lemma resolve_returns_a_candidate_witness :
  fst (fetch_artist_details_in festival_difflib Sample.sp "The Strokes")
  = Some (mk_ArtistData "The Strokes" "id_strokes" ["indie rock"; "garage rock"])
  /\ exists items item,
       search Sample.sp "The Strokes" = Ok items /\ In item items
       /\ mk_ArtistData "The Strokes" "id_strokes" ["indie rock"; "garage rock"]
          = mk_ArtistData (item_name item) (item_id item) (item_genres item)
       /\ snd (fetch_artist_details_in festival_difflib Sample.sp "The Strokes")
          = details_logs "The Strokes" item.
Proof.
  assert (H : fst (fetch_artist_details_in festival_difflib Sample.sp "The Strokes")
              = Some (mk_ArtistData "The Strokes" "id_strokes" ["indie rock"; "garage rock"]))
    by (vm_compute; reflexivity).
  split; [exact H|].
  exact (resolve_returns_a_candidate festival_difflib Sample.sp "The Strokes" _ H).
Defined.

(* ================================================================== *)
(** * fetch_top_songs when fewer than five tracks qualify *)

Lemma scan_tracks_short (allow : bool) (ts acc : list track) (logs : list string) :
  List.length acc + List.length (filter (accepted allow) ts) < 5 ->
  scan_tracks allow ts acc logs
  = (app acc (filter (accepted allow) ts), app logs (map (track_log allow) ts)).
Proof.
  revert acc logs.
  induction ts as [|t rest IH]; intros acc logs Hc; cbn [scan_tracks filter map] in *.
  - rewrite !app_nil_r. reflexivity.
  - change (allow || negb (is_remix (track_name t))) with (accepted allow t).
    unfold track_log at 1.
    destruct (accepted allow t) eqn:E; cbn [List.length] in Hc.
    + rewrite length_app. cbn [List.length].
      destruct (5 <=? List.length acc + 1) eqn:L; [apply Nat.leb_le in L; lia|].
      rewrite IH by (rewrite length_app; cbn [List.length]; lia).
      rewrite <- !app_assoc. reflexivity.
    + destruct (5 <=? List.length acc) eqn:L; [apply Nat.leb_le in L; lia|].
      rewrite IH by lia. rewrite <- !app_assoc. reflexivity.
Qed.

(** When fewer than five of the first 10 fetched tracks qualify,
    fetch_top_songs examines all of those 10 (one ADDED or SKIPPED line
    each, in order), returns every qualifying one, and its final log line
    reports that number. *)
Theorem fetch_top_songs_short (sp : Spotify) (a : ArtistData) (rl : list string)
    (ts : list track) :
  let flag := allow_remixes_flag (ad_genres a) rl in
  artist_top_tracks sp (ad_id a) = Ok ts ->
  ts <> [] ->
  List.length (filter (accepted flag) (firstn 10 ts)) < 5 ->
  fetch_top_songs sp a rl
  = (map (to_song_data a) (filter (accepted flag) (firstn 10 ts)),
     app (top_songs_header a flag)
         (app (map (track_log flag) (firstn 10 ts))
              ["  > Final Count: " ++ str_nat (List.length (filter (accepted flag) (firstn 10 ts)))
               ++ " songs added for " ++ ad_name a])).
Proof.
  intros flag Hts Hne Hc.
  unfold fetch_top_songs, fetch_top_songs_body. fold flag. rewrite Hts.
  destruct ts as [|t0 ts]; [contradiction|].
  rewrite scan_tracks_short by (cbn [List.length]; lia).
  cbn [app]. rewrite firstn_all2 by lia. rewrite length_map. reflexivity.
Qed.

Lemma fetch_top_songs_short_witness :
  let a := mk_ArtistData "Fred again.." "id_fred" ["house"; "edm"] in
  let flag := allow_remixes_flag (ad_genres a) remixes_allowed_genres in
  artist_top_tracks Sample.sp (ad_id a) = Ok Sample.fred_tracks
  /\ Sample.fred_tracks <> []
  /\ List.length (filter (accepted flag) (firstn 10 Sample.fred_tracks)) < 5
  /\ fetch_top_songs Sample.sp a remixes_allowed_genres
     = (map (to_song_data a) (filter (accepted flag) (firstn 10 Sample.fred_tracks)),
        app (top_songs_header a flag)
            (app (map (track_log flag) (firstn 10 Sample.fred_tracks))
                 ["  > Final Count: "
                  ++ str_nat (List.length (filter (accepted flag) (firstn 10 Sample.fred_tracks)))
                  ++ " songs added for " ++ ad_name a])).
Proof.
  intros a flag.
  assert (H1 : artist_top_tracks Sample.sp (ad_id a) = Ok Sample.fred_tracks) by reflexivity.
  assert (H2 : Sample.fred_tracks <> []) by discriminate.
  assert (H3 : List.length (filter (accepted flag) (firstn 10 Sample.fred_tracks)) < 5)
    by (vm_compute; lia).
  split; [exact H1|]. split; [exact H2|]. split; [exact H3|].
  exact (fetch_top_songs_short Sample.sp a remixes_allowed_genres _ H1 H2 H3).
Defined.

(* ================================================================== *)
(** * add_tracks_in_batches when a call raises *)

Lemma batch_loop_failure (sp : Spotify) (u p : string) (song_ids : list string)
    (is : list nat) (calls : list (list string)) (logs : list string) (e : py_exc) :
  batch_loop sp u p song_ids is = (calls, logs, Err e) ->
  exists k,
    k < List.length is
    /\ calls = map (fun i => firstn batch_size (skipn i song_ids)) (firstn (S k) is)
    /\ logs = map (fun i => batch_log i (firstn batch_size (skipn i song_ids))) (firstn k is)
    /\ user_playlist_add_tracks sp u p (firstn batch_size (skipn (nth k is 0) song_ids))
       = Err e.
Proof.
  revert calls logs.
  induction is as [|i rest IH]; intros calls logs H; cbn [batch_loop] in H;
    [discriminate H|].
  destruct (user_playlist_add_tracks sp u p (firstn batch_size (skipn i song_ids)))
    as [x|e'] eqn:Hcall.
  - destruct (batch_loop sp u p song_ids rest) as [[calls' logs'] r] eqn:E.
    injection H as <- <- ->.
    destruct (IH calls' logs' eq_refl) as (k & Hk & -> & -> & He).
    exists (S k). cbn [List.length firstn map nth]. repeat split; [lia|exact He].
  - injection H as <- <- ->. exists 0. cbn [List.length firstn map nth].
    repeat split; [lia|exact Hcall].
Qed.

Lemma firstn_seq_min (n start len : nat) :
  firstn n (seq start len) = seq start (Nat.min n len).
Proof.
  revert start len. induction n as [|n IH]; intros start len; [reflexivity|].
  destruct len as [|len]; [reflexivity|].
  cbn [seq firstn Nat.min]. rewrite IH. reflexivity.
Qed.

Lemma firstn_plus {A} (n m : nat) (l : list A) :
  firstn (n + m) l = app (firstn n l) (firstn m (skipn n l)).
Proof.
  revert l. induction n as [|n IH]; intros l; [reflexivity|].
  destruct l as [|x l]; cbn [firstn skipn Nat.add app].
  - rewrite firstn_nil. reflexivity.
  - rewrite IH. reflexivity.
Qed.

Lemma slices_prefix (m : nat) (l : list string) :
  List.concat (map (slice_k l) (seq 0 m)) = firstn (batch_size * m) l.
Proof.
  unfold slice_k, batch_size. revert l.
  induction m as [|m IH]; intros l; [reflexivity|].
  cbn [seq map List.concat]. rewrite <- seq_shift, map_map.
  rewrite Nat.mul_0_r. cbn [skipn].
  rewrite (map_ext (fun x => firstn 100 (skipn (100 * S x) l))
                   (fun x => firstn 100 (skipn (100 * x) (skipn 100 l)))).
  - rewrite IH. replace (100 * S m) with (100 + 100 * m) by lia.
    symmetry. apply firstn_plus.
  - intros x. rewrite skipn_skipn. f_equal. f_equal. lia.
Qed.

(** When a [user_playlist_add_tracks] call raises, add_tracks_in_batches
    stops at that batch: the calls made are the first [k+1] slices (the
    [k+1]-th raised), so the ids sent are exactly the first [100*(k+1)]
    ids; only the [k] successful batches are logged, and no later slice is
    sent.  The exception leaves the function. *)
Theorem add_tracks_stops_at_failure (sp : Spotify) (u p : string)
    (song_ids : list string) (calls : list (list string)) (logs : list string)
    (e : py_exc) :
  add_tracks_in_batches sp u p song_ids = (calls, logs, Err e) ->
  exists k,
    k < (List.length song_ids + 99) / 100
    /\ calls = map (slice_k song_ids) (seq 0 (S k))
    /\ List.concat calls = firstn (batch_size * S k) song_ids
    /\ user_playlist_add_tracks sp u p (slice_k song_ids k) = Err e
    /\ logs = map (fun j => "Added batch " ++ str_nat (j + 1) ++ " ("
                             ++ str_nat (List.length (slice_k song_ids j))
                             ++ " tracks) to the playlist.")
                  (seq 0 k).
Proof.
  unfold add_tracks_in_batches. rewrite py_range_batches. intros H.
  destruct (batch_loop_failure _ _ _ _ _ _ _ _ H) as (k & Hk & Hc & Hl & He).
  rewrite length_map, length_seq in Hk.
  exists k. rewrite !firstn_map, !firstn_seq_min in *.
  rewrite (Nat.min_l (S k)) in Hc by lia. rewrite (Nat.min_l k) in Hl by lia.
  assert (Hc' : calls = map (slice_k song_ids) (seq 0 (S k)))
    by (rewrite Hc, map_map; reflexivity).
  split; [exact Hk|]. split; [exact Hc'|]. split; [rewrite Hc'; apply slices_prefix|].
  split.
  - rewrite (nth_indep _ 0 (batch_size * 0)) in He
      by (rewrite length_map, length_seq; exact Hk).
    rewrite (map_nth (fun k0 => batch_size * k0)), seq_nth in He by exact Hk.
    exact He.
  - rewrite Hl, map_map. apply map_ext. intros j.
    unfold batch_log, slice_k, batch_size.
    rewrite (Nat.mul_comm 100 j), Nat.div_mul by lia. reflexivity.
Qed.

Lemma add_tracks_stops_at_failure_witness :
  let ids := Sample.track_ids 250 in
  let r := add_tracks_in_batches Sample.sp_flaky "fan" "pl1" ids in
  r = (fst (fst r), snd (fst r), Err (SpotifyException "http status: 500"))
  /\ exists k,
       k < (List.length ids + 99) / 100
       /\ fst (fst r) = map (slice_k ids) (seq 0 (S k))
       /\ List.concat (fst (fst r)) = firstn (batch_size * S k) ids
       /\ user_playlist_add_tracks Sample.sp_flaky "fan" "pl1" (slice_k ids k)
          = Err (SpotifyException "http status: 500")
       /\ snd (fst r) = map (fun j => "Added batch " ++ str_nat (j + 1) ++ " ("
                                       ++ str_nat (List.length (slice_k ids j))
                                       ++ " tracks) to the playlist.")
                            (seq 0 k).
Proof.
  intros ids r.
  assert (H : r = (fst (fst r), snd (fst r), Err (SpotifyException "http status: 500")))
    by (vm_compute; reflexivity).
  split; [exact H|].
  exact (add_tracks_stops_at_failure _ _ _ _ _ _ _ H).
Defined.

(* ================================================================== *)
(** * Phase 3 *)

(** Phase 3 of main.  If creating the playlist raises, no batch is sent
    and the only event is one ERROR record.  Otherwise the playlist is
    announced, then each batch added is logged; if every batch is added,
    a final INFO line gives the number of songs; if a batch call raises,
    the batches sent are the leading slices up to that one, the run ends
    with one ERROR record instead of the success line, and the playlist
    already created is left in place (no further call is made). *)
Theorem phase3_outcomes (c : Client) (username : string) (song_ids : list string) :
  (forall e, user_playlist_create c username playlist_name = Err e ->
     phase3 c username song_ids = ([], [phase3_error e])
     /\ exists msg, phase3_error e = Log ERROR msg)
  /\ (forall pid calls logs,
        user_playlist_create c username playlist_name = Ok pid ->
        add_tracks_in_batches (client_api c) username pid song_ids = (calls, logs, Ok tt) ->
        phase3 c username song_ids
        = (calls, app (Log INFO "Successfully created playlist: Coachella 2026"
                       :: map (Log INFO) logs)
                      [Log INFO (nl ++ "Playlist 'Coachella 2026' was created successfully with "
                                 ++ str_nat (List.length song_ids) ++ " songs " ++ party_popper)]))
  /\ (forall pid calls logs e,
        user_playlist_create c username playlist_name = Ok pid ->
        add_tracks_in_batches (client_api c) username pid song_ids = (calls, logs, Err e) ->
        exists k,
          calls = map (slice_k song_ids) (seq 0 (S k))
          /\ List.length logs = k
          /\ phase3 c username song_ids
             = (calls, app (Log INFO "Successfully created playlist: Coachella 2026"
                            :: map (Log INFO) logs) [phase3_error e])).
Proof.
  split; [|split].
  - intros e He. unfold phase3. rewrite He. split; [reflexivity|].
    destruct e; eexists; reflexivity.
  - intros pid calls logs Hc Ha. unfold phase3. rewrite Hc, Ha. reflexivity.
  - intros pid calls logs e Hc Ha.
    destruct (add_tracks_stops_at_failure _ _ _ _ _ _ _ Ha) as (k & _ & Hcalls & _ & _ & Hl).
    exists k. split; [exact Hcalls|]. split; [rewrite Hl, length_map, length_seq; reflexivity|].
    unfold phase3. rewrite Hc, Ha. reflexivity.
Qed.

Lemma phase3_outcomes_witness :
  let ids := Sample.track_ids 150 in
  let r := add_tracks_in_batches (client_api Sample.client_flaky) "fan" "pl1" ids in
  user_playlist_create Sample.client_flaky "fan" playlist_name = Ok "pl1"
  /\ r = (fst (fst r), snd (fst r), Err (SpotifyException "http status: 500"))
  /\ exists k,
       fst (fst r) = map (slice_k ids) (seq 0 (S k))
       /\ List.length (snd (fst r)) = k
       /\ phase3 Sample.client_flaky "fan" ids
          = (fst (fst r), app (Log INFO "Successfully created playlist: Coachella 2026"
                               :: map (Log INFO) (snd (fst r)))
                              [phase3_error (SpotifyException "http status: 500")]).
Proof.
  intros ids r.
  assert (H1 : user_playlist_create Sample.client_flaky "fan" playlist_name = Ok "pl1")
    by reflexivity.
  assert (H2 : r = (fst (fst r), snd (fst r), Err (SpotifyException "http status: 500")))
    by (vm_compute; reflexivity).
  split; [exact H1|]. split; [exact H2|].
  exact (proj2 (proj2 (phase3_outcomes Sample.client_flaky "fan" ids)) _ _ _ _ H1 H2).
Defined.

(* ================================================================== *)
(** * main *)

(** Only the three configuration errors end main with an exit code, and
    it is always 1: fewer than two command-line arguments, a missing input
    file, or CLIENT_ID or CLIENT_SECRET unset or empty.  Each of them ends
    the run with a single ERROR record and no playlist call.  Every other
    way main ends is a plain return. *)
Theorem main_exit_codes :
  (forall (env : Env) (evs : list event) (code : nat) (calls : list (list string)),
      main env = (evs, ExitCode code, calls) ->
      code = 1 /\ calls = []
      /\ (exists msg, evs = [Log ERROR msg])
      /\ (List.length (argv env) < 2 \/ input_file env = None
          \/ truthy (env_client_id env) = false \/ truthy (env_client_secret env) = false))
  /\ (forall env : Env,
        List.length (argv env) < 2 \/ input_file env = None
        \/ truthy (env_client_id env) = false \/ truthy (env_client_secret env) = false ->
        exists msg, main env = ([Log ERROR msg], ExitCode 1, [])).
Proof.
  split.
  - intros env evs code calls H. unfold main in H.
    destruct (List.length (argv env) <? 2) eqn:Ha.
    + injection H as <- <- <-. apply Nat.ltb_lt in Ha.
      repeat split; [eexists; reflexivity|]. left. exact Ha.
    + destruct (input_file env) as [lines|] eqn:Hf.
      * destruct (truthy (env_client_id env)) eqn:Hi, (truthy (env_client_secret env)) eqn:Hs;
          cbn [negb orb] in H.
        -- destruct (negb (truthy (prompt_for_user_token _ _ _ _)));
             [discriminate H|destruct (run_phases _ _ _); discriminate H].
        -- injection H as <- <- <-. repeat split; [eexists; reflexivity|]. auto.
        -- injection H as <- <- <-. repeat split; [eexists; reflexivity|]. auto.
        -- injection H as <- <- <-. repeat split; [eexists; reflexivity|]. auto.
      * injection H as <- <- <-. repeat split; [eexists; reflexivity|]. auto.
  - intros env Hc. unfold main.
    destruct (List.length (argv env) <? 2) eqn:Ha; [eexists; reflexivity|].
    apply Nat.ltb_ge in Ha.
    destruct (input_file env) as [lines|] eqn:Hf; [|eexists; reflexivity].
    destruct Hc as [Hc|[Hc|[Hc|Hc]]]; [lia|discriminate Hc| |]; rewrite Hc;
      [|rewrite orb_true_r]; eexists; reflexivity.
Qed.

Lemma main_exit_codes_witness :
  main Sample.env_no_secret
  = ([Log ERROR "CLIENT_ID and CLIENT_SECRET environment variables must be set."],
     ExitCode 1, [])
  /\ truthy (env_client_secret Sample.env_no_secret) = false
  /\ exists msg, main Sample.env_no_secret = ([Log ERROR msg], ExitCode 1, []).
Proof.
  assert (H : main Sample.env_no_secret
              = ([Log ERROR "CLIENT_ID and CLIENT_SECRET environment variables must be set."],
                 ExitCode 1, [])) by (vm_compute; reflexivity).
  assert (Hs : truthy (env_client_secret Sample.env_no_secret) = false) by reflexivity.
  split; [exact H|]. split; [exact Hs|].
  exact (proj2 main_exit_codes Sample.env_no_secret (or_intror (or_intror (or_intror Hs)))).
Defined.





(** The first two phases of main in closed form: Phase 1 keeps the
    resolved artists in input order and prints the logs of every input
    name (resolved or skipped) in input order; main stops with "No valid
    artists" exactly when no name resolved; otherwise Phase 2 prints the
    per-artist logs in the same order, and main stops with "No songs"
    exactly when every resolved artist contributed no song; otherwise the
    song ids are the per-artist selections concatenated. *)
Theorem main_phases_closed_form (sp : Spotify) (artists : list string) :
  let valid := resolved_artists sp artists in
  let songs := List.concat (map (fun a => fst (fetch_top_songs sp a remixes_allowed_genres)) valid) in
  let logs1 := List.concat (map (fun n => snd (fetch_artist_details sp n)) artists) in
  let logs2 := List.concat (map (fun a => snd (fetch_top_songs sp a remixes_allowed_genres)) valid) in
  main_phases sp artists
  = match valid with
    | [] => (NoValidArtists, logs1)
    | _ :: _ =>
        match songs with
        | [] => (NoSongs, app logs1 logs2)
        | _ :: _ => (CreatePlaylist (map song_id songs), app logs1 logs2)
        end
    end.
Proof.
  cbv zeta.
  unfold main_phases, phase1. rewrite phase1_fold. cbn [app].
  destruct (resolved_artists sp artists) as [|a0 vrest]; [reflexivity|].
  unfold phase2. rewrite phase2_fold. cbn [app].
  destruct (List.concat (map (fun a => fst (fetch_top_songs sp a remixes_allowed_genres))
                             (a0 :: vrest))); reflexivity.
Qed.

Lemma concat_length_bound {A} (n : nat) (ls : list (list A)) :
  Forall (fun l => List.length l <= n) ls -> List.length (List.concat ls) <= n * List.length ls.
Proof.
  induction 1 as [|l ls Hl _ IH]; cbn [List.concat List.length]; [lia|].
  rewrite length_app. lia.
Qed.

Lemma resolved_artists_length (sp : Spotify) (artists : list string) :
  List.length (resolved_artists sp artists) <= List.length artists.
Proof.
  unfold resolved_artists. induction artists as [|n r IH]; [reflexivity|].
  cbn [flat_map List.length]. rewrite length_app.
  destruct (fst (fetch_artist_details sp n)); cbn [option_list List.length]; lia.
Qed.

(** When the phases reach playlist creation, the song-id list is non-empty
    and holds at most 5 ids per input artist name. *)
Theorem playlist_size_bound (sp : Spotify) (artists song_ids printed : list string) :
  main_phases sp artists = (CreatePlaylist song_ids, printed) ->
  song_ids <> [] /\ List.length song_ids <= 5 * List.length artists.
Proof.
  rewrite main_phases_closed_form.
  destruct (resolved_artists sp artists) as [|a0 vrest] eqn:Ev; [discriminate|].
  rewrite <- Ev.
  destruct (List.concat _) as [|s0 srest] eqn:Es; [discriminate|].
  intros H. injection H as <- _. split; [discriminate|].
  change (List.length (song_id s0 :: map song_id srest))
    with (List.length (map song_id (s0 :: srest))).
  rewrite <- Es, length_map.
  eapply Nat.le_trans.
  - apply concat_length_bound. apply Forall_map, Forall_forall.
    intros a _. apply fetch_top_songs_at_most_5.
  - rewrite length_map. pose proof (resolved_artists_length sp artists). lia.
Qed.

Lemma playlist_size_bound_witness :
  let artists := ["The Strokes"; "Nobody"; "Fred again.."] in
  main_phases Sample.sp artists
  = (CreatePlaylist ["s1"; "s3"; "s5"; "s6"; "s7"; "f1"; "f2"; "f3"],
     snd (main_phases Sample.sp artists))
  /\ ["s1"; "s3"; "s5"; "s6"; "s7"; "f1"; "f2"; "f3"] <> []
  /\ List.length ["s1"; "s3"; "s5"; "s6"; "s7"; "f1"; "f2"; "f3"] <= 5 * List.length artists.
Proof.
  intros artists.
  assert (H : main_phases Sample.sp artists
              = (CreatePlaylist ["s1"; "s3"; "s5"; "s6"; "s7"; "f1"; "f2"; "f3"],
                 snd (main_phases Sample.sp artists))) by (vm_compute; reflexivity).
  split; [exact H|]. exact (playlist_size_bound _ _ _ _ H).
Defined.
